(** * TemperatureMap: the packaging script [setup.py]

    A shallow embedding of the script's top-level statements, in the order
    in which the interpreter executes them, and the properties of its
    behaviour: the guard on [ASCDS_INSTALL], the three derived lists and the
    keyword arguments handed to [distutils.core.setup]. *)

From stdpp Require Import base strings list gmap.

Module SetupPy.

(** ** What the script can observe *)

(** Everything outside the script that its statements read.
    - [os_environ] is the mapping [os.environ];
    - [os_path_exists p] is the answer of [os.path.exists(p)], paths being
      relative to the working directory;
    - [sys_argv] is [sys.argv] ([sys] is imported, and never used);
    - [debug] is the interpreter constant [__debug__]: true unless the
      interpreter runs with assertions compiled out ([-O], [PYTHONOPTIMIZE]).
      The language defines [assert c, m] as
      [if __debug__: if not c: raise AssertionError(m)];
    - [import_raises m] is the exception, if any, that importing the module
      [m] raises: [ModuleNotFoundError] where the module is not installed
      (there is no [distutils] from Python 3.12 on), or whatever the
      module's own code raises while it is loaded. *)
Record World := {
  os_environ : gmap string string;
  os_path_exists : string → bool;
  sys_argv : list string;
  debug : bool;
  import_raises : string → option string;
}.

(** The same world, started with another argument vector. *)
Definition with_argv (w : World) (a : list string) : World :=
  {| os_environ := os_environ w;
     os_path_exists := os_path_exists w;
     sys_argv := a;
     debug := debug w;
     import_raises := import_raises w |}.

(** ** Values, names and exceptions *)

(** The objects bound to the script's global names. *)
Inductive value :=
  | VList (l : list string)
  | VModule (modname : string)
  | VFunction (qualname : string).

(** The keyword arguments of the call [setup(...)]. *)
Record SetupArgs := {
  name : string;
  version : string;
  description : string;
  author : string;
  author_email : string;
  url : string;
  scripts : list string;
  data_files : list (string * list string);
}.

(** [ImportRaised m e] is the exception [e] that came out of the import of
    the module [m]; [External e] is an exception that comes out of the
    packaging routine. *)
Inductive exn :=
  | AssertionError (msg : string)
  | NameError (id : string)
  | AttributeError (id : string)
  | TypeError (id : string)
  | ImportRaised (modname e : string)
  | External (e : string).

(** The module's global namespace and the calls made to the packaging
    routine so far. *)
Record State := {
  globals : gmap string value;
  calls : list SetupArgs;
}.

Definition init : State := {| globals := ∅; calls := [] |}.

(** ** Statements: state passing with exceptions

    A statement maps the state before it to the state after it and either
    an exception or a result.  A raised exception ends the script: nothing
    in it catches one. *)
Definition M (A : Type) : Type := State → State * (exn + A).

Definition ret {A} (a : A) : M A := λ st, (st, inr a).

Definition raise {A} (e : exn) : M A := λ st, (st, inl e).

Definition bind {A B} (m : M A) (k : A → M B) : M B :=
  λ st, match m st with
        | (st', inl e) => (st', inl e)
        | (st', inr a) => k a st'
        end.

Declare Scope py_scope.
Delimit Scope py_scope with py.
Notation "x <- m ;; k" := (bind m (λ x, k))
  (at level 100, m at next level, right associativity) : py_scope.
Notation "m ;; k" := (bind m (λ _, k))
  (at level 100, right associativity) : py_scope.
Local Open Scope py_scope.

(** The state in which the global name [x] is bound to [v]. *)
Definition set_global (x : string) (v : value) (st : State) : State :=
  {| globals := <[x := v]> (globals st); calls := calls st |}.

(** The state after one more call of the packaging routine. *)
Definition record_call (args : SetupArgs) (st : State) : State :=
  {| globals := globals st; calls := calls st ++ [args] |}.

(** [x = v] *)
Definition assign (x : string) (v : value) : M unit :=
  λ st, (set_global x v st, inr tt).

(** Reading the global name [x]. *)
Definition load (x : string) : M value :=
  λ st, match globals st !! x with
        | Some v => (st, inr v)
        | None => (st, inl (NameError x))
        end.

(** Reading [x] where a list of names is used: iterated over, or passed on
    as a list of file names. *)
Definition load_list (x : string) : M (list string) :=
  v <- load x ;;
  match v with
  | VList l => ret l
  | _ => raise (TypeError x)
  end.

(** Reading [x] where an attribute of a module is taken, as in
    [os.environ]. *)
Definition load_module (x : string) : M unit :=
  v <- load x ;;
  match v with
  | VModule _ => ret tt
  | _ => raise (AttributeError x)
  end.

(** [import m], for the modules [os] and [sys], which the interpreter has
    loaded before it runs the script. *)
Definition import_ (m : string) : M unit := assign m (VModule m).

(** [from m import f]: the module [m] is imported first, and an exception
    of that import ends the statement with [f] unbound. *)
Definition from_import (w : World) (m f : string) : M unit :=
  match import_raises w m with
  | Some e => raise (ImportRaised m e)
  | None => assign f (VFunction (m +:+ "." +:+ f))
  end.

(** [assert c, msg]: the condition is evaluated only when [__debug__]. *)
Definition assert_ (w : World) (c : M bool) (msg : string) : M unit :=
  if debug w then
    b <- c ;;
    if b then ret tt else raise (AssertionError msg)
  else ret tt.

(** [[ elt(x) for x in it ]]; the loop variable is local to the
    comprehension and binds no global name. *)
Fixpoint comp_for {A B} (elt : A → M B) (it : list A) : M (list B) :=
  match it with
  | [] => ret []
  | x :: it' =>
      y <- elt x ;;
      ys <- comp_for elt it' ;;
      ret (y :: ys)
  end.

(** [[ elt(x) for x in it if cond(x) ]] *)
Fixpoint comp_for_if {A B} (elt : A → M B) (cond : A → M bool)
    (it : list A) : M (list B) :=
  match it with
  | [] => ret []
  | x :: it' =>
      b <- cond x ;;
      if b then
        y <- elt x ;;
        ys <- comp_for_if elt cond it' ;;
        ret (y :: ys)
      else comp_for_if elt cond it'
  end.

(** ** The expressions of the script *)

(** ["ASCDS_INSTALL" in os.environ] *)
Definition ciao_is_setup (w : World) : M bool :=
  load_module "os" ;;
  ret (bool_decide (is_Some (os_environ w !! "ASCDS_INSTALL"))).

(** [os.path.exists(p)] *)
Definition exists_ (w : World) (p : string) : M bool :=
  load_module "os" ;;
  ret (os_path_exists w p).

(** The keyword arguments written at lines 15 to 22, for the values [s], [p]
    and [d] of the names [scripts], [params] and [docs]. *)
Definition keywords (s p d : list string) : SetupArgs :=
  {| name := "TemperatureMaps";
     version := "4.13.0";
     description := "Temperature maps scripts";
     author := "Kenny Glotfelty";
     author_email := "glotfeltyk@si.edu";
     url := "https://github.com/kglotfelty/TemperatureMaps/";
     scripts := s;
     data_files := [("param", p); ("share/doc/xml", d)] |}.

Section Script.

(** The packaging routine [distutils.core.setup], which is not part of the
    repository: given the world and the keyword arguments it either returns
    ([None]) or raises. *)
Variable setup : World → SetupArgs → option string.

(** [setup(name=..., ..., scripts=scripts, data_files=[...])]: the four
    names are read, the keyword arguments are built and the routine is
    called. *)
Definition call_setup (w : World) : M unit :=
  f <- load "setup" ;;
  s <- load_list "scripts" ;;
  p <- load_list "params" ;;
  d <- load_list "docs" ;;
  match f with
  | VFunction _ =>
      λ st,
        match setup w (keywords s p d) with
        | None => (record_call (keywords s p d) st, inr tt)
        | Some e => (record_call (keywords s p d) st, inl (External e))
        end
  | _ => raise (TypeError "setup")
  end.

(** ** The script *)

(** Lines 3 to 6: the imports and the guard. *)
Definition guard (w : World) : M unit :=
  import_ "os" ;;
  import_ "sys" ;;
  assert_ w (ciao_is_setup w) "Please run this after CIAO has been setup".

(** Line 9: [scripts = ["image_tempmap","make_mkwarf_map","multi_spec"]] *)
Definition assign_scripts : M unit :=
  assign "scripts" (VList ["image_tempmap"; "make_mkwarf_map"; "multi_spec"]).

(** Line 10: [params = [ x+".par" for x in scripts]] *)
Definition assign_params : M unit :=
  s <- load_list "scripts" ;;
  l <- comp_for (λ x, ret (x +:+ ".par")) s ;;
  assign "params" (VList l).

(** Line 11:
    [docs = [ x+".xml" for x in scripts if os.path.exists(x+".xml")]] *)
Definition assign_docs (w : World) : M unit :=
  s <- load_list "scripts" ;;
  l <- comp_for_if (λ x, ret (x +:+ ".xml"))
                   (λ x, exists_ w (x +:+ ".xml")) s ;;
  assign "docs" (VList l).

(** Lines 9 to 11: the three lists. *)
Definition build_lists (w : World) : M unit :=
  assign_scripts ;;
  assign_params ;;
  assign_docs w.

(** Lines 14 to 23: the import of the packaging routine and its call. *)
Definition package (w : World) : M unit :=
  from_import w "distutils.core" "setup" ;;
  call_setup w.

Definition script (w : World) : M unit :=
  guard w ;;
  build_lists w ;;
  package w.

(** Running the script from a fresh namespace. *)
Definition run (w : World) : State * (exn + unit) := script w init.

End Script.


(** ** The lists in the words of the specification *)

(** [params] as the map over the script names of appending [".par"]. *)
Definition params_by_concat (s : list string) : list string :=
  (λ x, x +:+ ".par") <$> s.

(** [docs] as the filter, by existence, of the map over the script names of
    appending [".xml"]. *)
Definition docs_by_concat (w : World) (s : list string) : list string :=
  filter (λ p, os_path_exists w p) ((λ x, x +:+ ".xml") <$> s).

(** ** States reached by the script *)

(** The state after the two imports of lines 3 and 4. *)
Definition imported (st : State) : State :=
  set_global "sys" (VModule "sys") (set_global "os" (VModule "os") st).

(** The state after the three assignments of lines 9 to 11, when [scripts]
    is [s]. *)
Definition listed (w : World) (s : list string) (st : State) : State :=
  set_global "docs" (VList (docs_by_concat w s))
    (set_global "params" (VList (params_by_concat s))
       (set_global "scripts" (VList s) st)).

(** The state in which the script ends once it has passed the guard and
    imported the packaging routine. *)
Definition finished (w : World) : State :=
  let s := ["image_tempmap"; "make_mkwarf_map"; "multi_spec"] in
  record_call (keywords s (params_by_concat s) (docs_by_concat w s))
    (set_global "setup" (VFunction "distutils.core.setup")
       (listed w s (imported init))).

(** What the call of the packaging routine makes of the script's run. *)
Definition delegated (r : option string) : exn + unit :=
  match r with
  | None => inr tt
  | Some e => inl (External e)
  end.

(** ** Sample worlds *)

(** A packaging routine that installs and returns. *)
Definition installs : World → SetupArgs → option string := λ _ _, None.

(** A packaging routine that rejects the command line. *)
Definition rejects : World → SetupArgs → option string :=
  λ _ _, Some "SystemExit".

(** CIAO is set up, and only [multi_spec.xml] is in the directory. *)
Definition ciao_world : World :=
  {| os_environ := {["ASCDS_INSTALL" := "/soft/ciao"]};
     os_path_exists := λ p, bool_decide (p = "multi_spec.xml");
     sys_argv := ["setup.py"; "install"];
     debug := true;
     import_raises := λ _, None |}.

(** The keyword arguments of the call made in [ciao_world]. *)
Definition ciao_call : SetupArgs :=
  keywords ["image_tempmap"; "make_mkwarf_map"; "multi_spec"]
    ["image_tempmap.par"; "make_mkwarf_map.par"; "multi_spec.par"]
    ["multi_spec.xml"].

(** CIAO is not set up. *)
Definition bare_world : World :=
  {| os_environ := ∅;
     os_path_exists := λ _, false;
     sys_argv := ["setup.py"; "install"];
     debug := true;
     import_raises := λ _, None |}.

(** CIAO is not set up and the interpreter runs without assertions. *)
Definition optimized_world : World :=
  {| os_environ := ∅;
     os_path_exists := λ _, false;
     sys_argv := ["setup.py"; "install"];
     debug := false;
     import_raises := λ _, None |}.

(** CIAO is set up with an empty [ASCDS_INSTALL], among other variables;
    the directory holds [multi_spec.xml] and files the script never asks
    for. *)
Definition crowded_world : World :=
  {| os_environ := {["ASCDS_INSTALL" := EmptyString; "HOME" := "/home/cxc"]};
     os_path_exists :=
       λ p, bool_decide (p ∈ ["multi_spec.xml"; "multi_spec"; "README.md"]);
     sys_argv := ["setup.py"; "sdist"; "--quiet"];
     debug := true;
     import_raises := λ _, None |}.

(** CIAO is set up, and the interpreter has no [distutils]. *)
Definition stripped_world : World :=
  {| os_environ := {["ASCDS_INSTALL" := "/soft/ciao"]};
     os_path_exists := λ p, bool_decide (p = "multi_spec.xml");
     sys_argv := ["setup.py"; "install"];
     debug := true;
     import_raises :=
       λ m, if bool_decide (m = "distutils.core")
            then Some "ModuleNotFoundError" else None |}.

Section Properties.

Variable setup : World → SetupArgs → option string.

Local Open Scope py_scope.

Lemma bind_inr {A B} (m : M A) (k : A → M B) st st' a :
  m st = (st', inr a) → bind m k st = k a st'.
Proof. intros E. unfold bind. by rewrite E. Qed.

Lemma bind_inl {A B} (m : M A) (k : A → M B) st st' e :
  m st = (st', inl e) → bind m k st = (st', inl e).
Proof. intros E. unfold bind. by rewrite E. Qed.

Lemma load_list_bound st x l :
  globals st !! x = Some (VList l) → load_list x st = (st, inr l).
Proof. intros E. unfold load_list, bind, load. by rewrite E. Qed.

Lemma load_module_bound st x m :
  globals st !! x = Some (VModule m) → load_module x st = (st, inr tt).
Proof. intros E. unfold load_module, bind, load. by rewrite E. Qed.

Lemma load_bound st x v :
  globals st !! x = Some v → load x st = (st, inr v).
Proof. intros E. unfold load. by rewrite E. Qed.

Lemma exists_bound w p st m :
  globals st !! "os" = Some (VModule m) →
  exists_ w p st = (st, inr (os_path_exists w p)).
Proof.
  intros E. unfold exists_.
  by rewrite (bind_inr _ _ _ _ _ (load_module_bound _ _ _ E)).
Qed.

(** Reading a name that was just bound, or one bound before. *)
Lemma globals_set_eq x v st : globals (set_global x v st) !! x = Some v.
Proof. apply lookup_insert_eq. Qed.

Lemma globals_set_ne x y v st :
  x ≠ y → globals (set_global x v st) !! y = globals st !! y.
Proof. intros. by apply lookup_insert_ne. Qed.

Lemma globals_record_call a st : globals (record_call a st) = globals st.
Proof. done. Qed.

(** Resolves the reading of a name in a state built by assignments. *)
Ltac read_global :=
  rewrite ?globals_record_call;
  repeat (rewrite globals_set_ne by done);
  rewrite ?globals_set_eq.

(** A comprehension without side effects is a map... *)
Lemma comp_for_ret {A B} (f : A → B) it st :
  comp_for (λ x, ret (f x)) it st = (st, inr (f <$> it)).
Proof.
  induction it as [|x it IH]; [done|].
  cbn [comp_for]. unfold bind at 1. cbn. unfold bind. by rewrite IH.
Qed.

(** ... and one filtered by [os.path.exists] is a map after a filter. *)
Lemma comp_for_if_exists w (f g : string → string) it st m :
  globals st !! "os" = Some (VModule m) →
  comp_for_if (λ x, ret (f x)) (λ x, exists_ w (g x)) it st
  = (st, inr (f <$> filter (λ x, os_path_exists w (g x)) it)).
Proof.
  intros E. induction it as [|x it IH]; [done|].
  cbn [comp_for_if].
  rewrite (bind_inr _ _ _ _ _ (exists_bound w (g x) _ _ E)).
  rewrite filter_cons.
  destruct (os_path_exists w (g x)) eqn:Ex.
  - rewrite decide_True by done.
    unfold bind at 1. cbn. unfold bind. by rewrite IH.
  - rewrite decide_False by (intros H; exact H). exact IH.
Qed.

(** Filtering the names and then appending the suffix is filtering the
    suffixed names. *)
Lemma fmap_filter_suffix (P : string → bool) (f : string → string)
    (l : list string) :
  f <$> filter (λ x, P (f x)) l = filter (λ p, P p) (f <$> l).
Proof.
  induction l as [|x l IH]; [done|].
  rewrite fmap_cons, !filter_cons. cbn beta.
  destruct (P (f x)).
  - rewrite !decide_True by done. rewrite fmap_cons. by f_equal.
  - rewrite !decide_False by (intros H; exact H). exact IH.
Qed.

(** *** The three parts of the script *)

Lemma ciao_is_setup_bound w st m :
  globals st !! "os" = Some (VModule m) →
  ciao_is_setup w st
  = (st, inr (bool_decide (is_Some (os_environ w !! "ASCDS_INSTALL")))).
Proof.
  intros E. unfold ciao_is_setup.
  by rewrite (bind_inr _ _ _ _ _ (load_module_bound _ _ _ E)).
Qed.

Lemma imported_os st : globals (imported st) !! "os" = Some (VModule "os").
Proof. unfold imported. by read_global. Qed.

Lemma guard_passes w st :
  debug w = false ∨ is_Some (os_environ w !! "ASCDS_INSTALL") →
  guard w st = (imported st, inr tt).
Proof.
  intros H. unfold guard, import_, assert_, assign, bind at 1 2.
  fold (imported st). destruct (debug w); [|done].
  destruct H as [H|H]; [done|].
  rewrite (bind_inr _ _ _ _ _ (ciao_is_setup_bound w _ _ (imported_os st))).
  by rewrite bool_decide_eq_true_2.
Qed.

Lemma guard_fails w st :
  debug w = true → os_environ w !! "ASCDS_INSTALL" = None →
  guard w st
  = (imported st,
     inl (AssertionError "Please run this after CIAO has been setup")).
Proof.
  intros D E. unfold guard, import_, assert_, assign, bind at 1 2.
  fold (imported st). rewrite D.
  rewrite (bind_inr _ _ _ _ _ (ciao_is_setup_bound w _ _ (imported_os st))).
  rewrite E. by rewrite bool_decide_eq_false_2 by (by intros [??]).
Qed.

Lemma assign_params_bound st s :
  globals st !! "scripts" = Some (VList s) →
  assign_params st
  = (set_global "params" (VList (params_by_concat s)) st, inr tt).
Proof.
  intros E. unfold assign_params.
  rewrite (bind_inr _ _ _ _ _ (load_list_bound _ _ _ E)).
  by rewrite (bind_inr _ _ _ _ _ (comp_for_ret _ _ _)).
Qed.

Lemma assign_docs_bound w st s m :
  globals st !! "scripts" = Some (VList s) →
  globals st !! "os" = Some (VModule m) →
  assign_docs w st
  = (set_global "docs" (VList (docs_by_concat w s)) st, inr tt).
Proof.
  intros E Eos. unfold assign_docs.
  rewrite (bind_inr _ _ _ _ _ (load_list_bound _ _ _ E)).
  rewrite (bind_inr _ _ _ _ _
             (comp_for_if_exists w _ (λ x, x +:+ ".xml") _ _ _ Eos)).
  unfold docs_by_concat.
  by rewrite <- (fmap_filter_suffix (os_path_exists w)).
Qed.

Lemma build_lists_bound w st m :
  globals st !! "os" = Some (VModule m) →
  build_lists w st
  = (listed w ["image_tempmap"; "make_mkwarf_map"; "multi_spec"] st, inr tt).
Proof.
  intros Eos. unfold build_lists, assign_scripts, assign, bind at 1.
  set (st1 := set_global "scripts" _ st).
  rewrite (bind_inr _ _ _ _ _
             (assign_params_bound st1 _ (globals_set_eq _ _ _))).
  subst st1. apply (assign_docs_bound w _ _ m); by read_global.
Qed.

Lemma package_import_fails w st x :
  import_raises w "distutils.core" = Some x →
  package setup w st = (st, inl (ImportRaised "distutils.core" x)).
Proof. intros I. unfold package, from_import, bind. by rewrite I. Qed.

Lemma package_bound w st s p d :
  import_raises w "distutils.core" = None →
  globals st !! "scripts" = Some (VList s) →
  globals st !! "params" = Some (VList p) →
  globals st !! "docs" = Some (VList d) →
  package setup w st
  = (record_call (keywords s p d)
       (set_global "setup" (VFunction "distutils.core.setup") st),
     match setup w (keywords s p d) with
     | None => inr tt
     | Some e => inl (External e)
     end).
Proof.
  intros I Es Ep Ed. unfold package, from_import. rewrite I.
  unfold assign, bind at 1. cbn [String.append]. unfold call_setup.
  rewrite (bind_inr _ _ _ _ _ (load_bound _ _ _ (globals_set_eq _ _ _))).
  erewrite (bind_inr (load_list "scripts"));
    [|by apply load_list_bound; rewrite globals_set_ne].
  erewrite (bind_inr (load_list "params"));
    [|by apply load_list_bound; rewrite globals_set_ne].
  erewrite (bind_inr (load_list "docs"));
    [|by apply load_list_bound; rewrite globals_set_ne].
  by destruct (setup w _).
Qed.

(** *** The whole script *)

Lemma run_fails w :
  debug w = true → os_environ w !! "ASCDS_INSTALL" = None →
  run setup w
  = (imported init,
     inl (AssertionError "Please run this after CIAO has been setup")).
Proof.
  intros D E. unfold run, script.
  by rewrite (bind_inl _ _ _ _ _ (guard_fails w init D E)).
Qed.

Lemma run_import_fails w x :
  debug w = false ∨ is_Some (os_environ w !! "ASCDS_INSTALL") →
  import_raises w "distutils.core" = Some x →
  run setup w
  = (listed w ["image_tempmap"; "make_mkwarf_map"; "multi_spec"]
       (imported init),
     inl (ImportRaised "distutils.core" x)).
Proof.
  intros H I. unfold run, script.
  rewrite (bind_inr _ _ _ _ _ (guard_passes w init H)).
  rewrite (bind_inr _ _ _ _ _
             (build_lists_bound w _ _ (imported_os init))).
  by apply package_import_fails.
Qed.

Lemma run_passes w :
  debug w = false ∨ is_Some (os_environ w !! "ASCDS_INSTALL") →
  import_raises w "distutils.core" = None →
  run setup w
  = (finished w,
     delegated
       (setup w
          (keywords ["image_tempmap"; "make_mkwarf_map"; "multi_spec"]
             (params_by_concat
                ["image_tempmap"; "make_mkwarf_map"; "multi_spec"])
             (docs_by_concat w
                ["image_tempmap"; "make_mkwarf_map"; "multi_spec"])))).
Proof.
  intros H I. unfold run, script.
  rewrite (bind_inr _ _ _ _ _ (guard_passes w init H)).
  rewrite (bind_inr _ _ _ _ _
             (build_lists_bound w _ _ (imported_os init))).
  unfold listed. erewrite package_bound; [done|done|..].
  all: by read_global.
Qed.

(** A run stops at the guard, or at the import of the packaging routine, or
    goes through to the call. *)
Lemma run_cases w :
  (debug w = true ∧ os_environ w !! "ASCDS_INSTALL" = None
   ∧ (run setup w).1 = imported init)
  ∨ ((debug w = false ∨ is_Some (os_environ w !! "ASCDS_INSTALL"))
     ∧ is_Some (import_raises w "distutils.core")
     ∧ (run setup w).1
       = listed w ["image_tempmap"; "make_mkwarf_map"; "multi_spec"]
           (imported init))
  ∨ ((debug w = false ∨ is_Some (os_environ w !! "ASCDS_INSTALL"))
     ∧ import_raises w "distutils.core" = None
     ∧ (run setup w).1 = finished w).
Proof.
  assert (debug w = true ∧ os_environ w !! "ASCDS_INSTALL" = None
          ∨ (debug w = false ∨ is_Some (os_environ w !! "ASCDS_INSTALL")))
    as [[D E]|H].
  { destruct (debug w); [|by right; left].
    destruct (os_environ w !! "ASCDS_INSTALL"); [right; right; eauto|by left]. }
  - left. by rewrite run_fails.
  - right. destruct (import_raises w "distutils.core") as [x|] eqn:I.
    + left. rewrite (run_import_fails w x H I). eauto.
    + right. by rewrite (run_passes w H I).
Qed.

Lemma listed_scripts w s st :
  globals (listed w s st) !! "scripts" = Some (VList s).
Proof. unfold listed. by read_global. Qed.

Lemma listed_params w s st :
  globals (listed w s st) !! "params" = Some (VList (params_by_concat s)).
Proof. unfold listed. by read_global. Qed.

Lemma listed_docs w s st :
  globals (listed w s st) !! "docs" = Some (VList (docs_by_concat w s)).
Proof. unfold listed. by read_global. Qed.

(** Past the guard the three lists are bound, whether or not the import of
    the packaging routine succeeds. *)
Lemma run_lists w :
  debug w = false ∨ is_Some (os_environ w !! "ASCDS_INSTALL") →
  globals (run setup w).1 !! "scripts"
  = Some (VList ["image_tempmap"; "make_mkwarf_map"; "multi_spec"])
  ∧ globals (run setup w).1 !! "params"
    = Some (VList (params_by_concat
                     ["image_tempmap"; "make_mkwarf_map"; "multi_spec"]))
  ∧ globals (run setup w).1 !! "docs"
    = Some (VList (docs_by_concat w
                     ["image_tempmap"; "make_mkwarf_map"; "multi_spec"])).
Proof.
  intros H. destruct (import_raises w "distutils.core") as [x|] eqn:I.
  - rewrite (run_import_fails w x H I). cbn [fst].
    by rewrite listed_scripts, listed_params, listed_docs.
  - rewrite (run_passes w H I). cbn [fst]. unfold finished. cbn zeta.
    rewrite !globals_record_call.
    rewrite !(globals_set_ne "setup") by done.
    by rewrite listed_scripts, listed_params, listed_docs.
Qed.

Lemma finished_scripts w :
  globals (finished w) !! "scripts"
  = Some (VList ["image_tempmap"; "make_mkwarf_map"; "multi_spec"]).
Proof.
  unfold finished, listed. by read_global.
Qed.

Lemma finished_params w :
  globals (finished w) !! "params"
  = Some (VList (params_by_concat
                   ["image_tempmap"; "make_mkwarf_map"; "multi_spec"])).
Proof.
  unfold finished, listed. by read_global.
Qed.

Lemma finished_docs w :
  globals (finished w) !! "docs"
  = Some (VList (docs_by_concat w
                   ["image_tempmap"; "make_mkwarf_map"; "multi_spec"])).
Proof.
  unfold finished, listed. by read_global.
Qed.

Lemma finished_calls w :
  calls (finished w)
  = [keywords ["image_tempmap"; "make_mkwarf_map"; "multi_spec"]
       (params_by_concat ["image_tempmap"; "make_mkwarf_map"; "multi_spec"])
       (docs_by_concat w ["image_tempmap"; "make_mkwarf_map"; "multi_spec"])].
Proof. done. Qed.

Lemma imported_unbound x :
  x ≠ "os" → x ≠ "sys" → globals (imported init) !! x = None.
Proof. intros. unfold imported. by read_global. Qed.

Lemma xml_names_NoDup :
  NoDup ["image_tempmap.xml"; "make_mkwarf_map.xml"; "multi_spec.xml"].
Proof. apply (bool_decide_unpack _). by vm_compute. Qed.

(** ** The properties of the script *)

(** C1, as amended: when [ASCDS_INSTALL] is not in the environment and the
    interpreter executes assertions, the script stops at the guard with an
    [AssertionError] carrying the message "Please run this after CIAO has
    been setup"; none of [scripts], [params] and [docs] is bound, the
    packaging routine is neither imported nor called. *)
Theorem guard_aborts_when_unset w :
  os_environ w !! "ASCDS_INSTALL" = None →
  debug w = true →
  (run setup w).2
    = inl (AssertionError "Please run this after CIAO has been setup")
  ∧ globals (run setup w).1 !! "scripts" = None
  ∧ globals (run setup w).1 !! "params" = None
  ∧ globals (run setup w).1 !! "docs" = None
  ∧ globals (run setup w).1 !! "setup" = None
  ∧ calls (run setup w).1 = [].
Proof.
  intros E D. rewrite (run_fails w D E). cbn [fst snd].
  by rewrite !imported_unbound.
Qed.

(** C2: when [ASCDS_INSTALL] is in the environment, the script binds
    [params] to exactly the three names with the suffix [.par], in the order
    of the script names, whatever the file system answers. *)
Theorem params_when_set w :
  is_Some (os_environ w !! "ASCDS_INSTALL") →
  globals (run setup w).1 !! "params"
  = Some (VList ["image_tempmap.par"; "make_mkwarf_map.par";
                 "multi_spec.par"]).
Proof. intros H. by destruct (run_lists w (or_intror H)) as (_ & ? & _). Qed.

(** C3: when [ASCDS_INSTALL] is in the environment, [docs] is bound to a
    list that contains [s.xml], for each of the three script names [s],
    exactly when [os.path.exists] answers true for [s.xml]; the entry is
    left out otherwise. *)
Theorem docs_when_set w :
  is_Some (os_environ w !! "ASCDS_INSTALL") →
  ∃ d, globals (run setup w).1 !! "docs" = Some (VList d)
     ∧ ∀ s, s ∈ ["image_tempmap"; "make_mkwarf_map"; "multi_spec"] →
            (s +:+ ".xml" ∈ d ↔ os_path_exists w (s +:+ ".xml") = true).
Proof.
  intros H. destruct (run_lists w (or_intror H)) as (_ & _ & Hd).
  eexists. split; [exact Hd|].
  intros s Hs. unfold docs_by_concat.
  rewrite list_elem_of_filter, Is_true_true. split; [by intros [? _]|].
  intros Ex. split; [done|].
  apply list_elem_of_fmap. by exists s.
Qed.

(** C4: every call of the packaging routine made by the script carries the
    six metadata values written in the script. *)
Theorem metadata_fixed w args :
  args ∈ calls (run setup w).1 →
  name args = "TemperatureMaps"
  ∧ version args = "4.13.0"
  ∧ description args = "Temperature maps scripts"
  ∧ author args = "Kenny Glotfelty"
  ∧ author_email args = "glotfeltyk@si.edu"
  ∧ url args = "https://github.com/kglotfelty/TemperatureMaps/".
Proof.
  destruct (run_cases w) as [(_ & _ & ->)|[(_ & _ & ->)|(_ & _ & ->)]].
  - by intros ?%elem_of_nil.
  - by intros ?%elem_of_nil.
  - rewrite finished_calls. by intros ->%list_elem_of_singleton.
Qed.

(** C5: every call of the packaging routine made by the script receives, as
    [scripts], the list of the three script names as written at line 9, and
    the name [scripts] is still bound to that list when the script ends. *)
Theorem scripts_fixed w args :
  args ∈ calls (run setup w).1 →
  scripts args = ["image_tempmap"; "make_mkwarf_map"; "multi_spec"]
  ∧ globals (run setup w).1 !! "scripts"
    = Some (VList ["image_tempmap"; "make_mkwarf_map"; "multi_spec"]).
Proof.
  destruct (run_cases w) as [(_ & _ & ->)|[(_ & _ & ->)|(_ & _ & ->)]].
  - by intros ?%elem_of_nil.
  - by intros ?%elem_of_nil.
  - rewrite finished_calls, finished_scripts.
    by intros ->%list_elem_of_singleton.
Qed.

(** C6, as amended: when [ASCDS_INSTALL] is in the environment, the guard
    and the three list statements complete without raising, and the script
    raises only what the import of the packaging routine at line 14 raises,
    the routine then not being called, or what its one call of the routine
    raises. *)
Theorem only_import_or_packaging_fails w :
  is_Some (os_environ w !! "ASCDS_INSTALL") →
  (∃ st, bind (guard w) (λ _, build_lists w) init = (st, inr tt))
  ∧ ∀ e, (run setup w).2 = inl e →
         (∃ x, e = ImportRaised "distutils.core" x
             ∧ import_raises w "distutils.core" = Some x
             ∧ calls (run setup w).1 = [])
         ∨ (∃ args x, e = External x
                    ∧ calls (run setup w).1 = [args]
                    ∧ setup w args = Some x).
Proof.
  intros H. split.
  - eexists.
    rewrite (bind_inr _ _ _ _ _ (guard_passes w init (or_intror H))).
    apply (build_lists_bound w _ _ (imported_os init)).
  - intros e. destruct (import_raises w "distutils.core") as [x|] eqn:I.
    + rewrite (run_import_fails w x (or_intror H) I). cbn [fst snd].
      intros [= <-]. left. by exists x.
    + rewrite (run_passes w (or_intror H) I). cbn [fst snd].
      destruct (setup w _) as [x|] eqn:S; [|done].
      intros [= <-]. right. by eexists _, x.
Qed.

(** C7: in a run that binds [scripts] to [s], [params] is the map over [s]
    of appending [.par] and [docs] is the filter, by [os.path.exists], of
    the map over [s] of appending [.xml]. *)
Theorem lists_by_concat w s :
  globals (run setup w).1 !! "scripts" = Some (VList s) →
  globals (run setup w).1 !! "params" = Some (VList (params_by_concat s))
  ∧ globals (run setup w).1 !! "docs" = Some (VList (docs_by_concat w s)).
Proof.
  destruct (run_cases w) as [(_ & _ & ->)|[(_ & _ & ->)|(_ & _ & ->)]].
  - by rewrite imported_unbound.
  - rewrite listed_scripts, listed_params, listed_docs. by intros [= <-].
  - rewrite finished_scripts, finished_params, finished_docs.
    by intros [= <-].
Qed.

(** C8: two runs in worlds that differ only in the argument vector end in
    the same state: the same bindings of [scripts], [params] and [docs],
    and the same calls of the packaging routine with the same keyword
    arguments. *)
Theorem argv_ignored w a1 a2 :
  (run setup (with_argv w a1)).1 = (run setup (with_argv w a2)).1.
Proof.
  destruct (run_cases (with_argv w a1))
    as [(D & E & ->)|[(H & [x I] & ->)|(H & I & ->)]].
  - by rewrite (run_fails (with_argv w a2) D E).
  - by rewrite (run_import_fails (with_argv w a2) x H I).
  - by rewrite (run_passes (with_argv w a2) H I).
Qed.

(** C9: whenever [docs] is bound, its value is a sublist of the three names
    with the suffix [.xml], taken in the order of the script names; so it
    has at most three entries, and no entry twice. *)
Theorem docs_sublist w d :
  globals (run setup w).1 !! "docs" = Some (VList d) →
  d `sublist_of` ["image_tempmap.xml"; "make_mkwarf_map.xml";
                  "multi_spec.xml"]
  ∧ length d ≤ 3
  ∧ NoDup d.
Proof.
  assert (docs_by_concat w
            ["image_tempmap"; "make_mkwarf_map"; "multi_spec"]
          `sublist_of` ["image_tempmap.xml"; "make_mkwarf_map.xml";
                        "multi_spec.xml"]) as Hsub
    by apply sublist_filter.
  intros Hd.
  assert (d = docs_by_concat w
                ["image_tempmap"; "make_mkwarf_map"; "multi_spec"]) as ->.
  { revert Hd.
    destruct (run_cases w) as [(_ & _ & ->)|[(_ & _ & ->)|(_ & _ & ->)]].
    - by rewrite imported_unbound.
    - rewrite listed_docs. by intros [= <-].
    - rewrite finished_docs. by intros [= <-]. }
  - split; [done|]. split.
    + apply (sublist_length _ _ Hsub).
    + apply (sublist_NoDup _ _ xml_names_NoDup Hsub).
Qed.

(** C10: every call of the packaging routine made by the script receives,
    as [data_files], the list of exactly two pairs: ["param"] with the value
    of [params] and ["share/doc/xml"] with the value of [docs]. *)
Theorem data_files_fixed w args :
  args ∈ calls (run setup w).1 →
  ∃ p d, globals (run setup w).1 !! "params" = Some (VList p)
       ∧ globals (run setup w).1 !! "docs" = Some (VList d)
       ∧ data_files args = [("param", p); ("share/doc/xml", d)].
Proof.
  destruct (run_cases w) as [(_ & _ & ->)|[(_ & _ & ->)|(_ & _ & ->)]].
  - by intros ?%elem_of_nil.
  - by intros ?%elem_of_nil.
  - rewrite finished_calls, finished_params, finished_docs.
    intros ->%list_elem_of_singleton. by eexists _, _.
Qed.

End Properties.
(** ** The properties at the sample worlds *)

(** In [bare_world] the script stops at the guard. *)
Lemma guard_aborts_in_bare_world :
  os_environ bare_world !! "ASCDS_INSTALL" = None
  ∧ debug bare_world = true
  ∧ (run installs bare_world).2
    = inl (AssertionError "Please run this after CIAO has been setup")
  ∧ globals (run installs bare_world).1 !! "scripts" = None
  ∧ globals (run installs bare_world).1 !! "params" = None
  ∧ globals (run installs bare_world).1 !! "docs" = None
  ∧ globals (run installs bare_world).1 !! "setup" = None
  ∧ calls (run installs bare_world).1 = [].
Proof.
  split; [reflexivity|]. split; [reflexivity|].
  apply (guard_aborts_when_unset installs bare_world); reflexivity.
Defined.

(** C1, as stated, fails in [optimized_world]: [ASCDS_INSTALL] is not in the
    environment, and yet the script raises nothing, binds the lists and
    calls the packaging routine, because the interpreter skips the
    [assert] statement. *)
Lemma guard_skipped_in_optimized_world :
  os_environ optimized_world !! "ASCDS_INSTALL" = None
  ∧ ¬ ((run installs optimized_world).2
        = inl (AssertionError "Please run this after CIAO has been setup")
      ∧ globals (run installs optimized_world).1 !! "scripts" = None
      ∧ globals (run installs optimized_world).1 !! "params" = None
      ∧ globals (run installs optimized_world).1 !! "docs" = None
      ∧ calls (run installs optimized_world).1 = [])
  ∧ (run installs optimized_world).2 = inr tt
  ∧ globals (run installs optimized_world).1 !! "scripts"
    = Some (VList ["image_tempmap"; "make_mkwarf_map"; "multi_spec"])
  ∧ calls (run installs optimized_world).1
    = [keywords ["image_tempmap"; "make_mkwarf_map"; "multi_spec"]
         ["image_tempmap.par"; "make_mkwarf_map.par"; "multi_spec.par"]
         []].
Proof.
  split; [reflexivity|]. split.
  - intros [H _]. vm_compute in H. discriminate H.
  - repeat split; vm_compute; reflexivity.
Qed.

Lemma params_in_ciao_world :
  is_Some (os_environ ciao_world !! "ASCDS_INSTALL")
  ∧ globals (run installs ciao_world).1 !! "params"
    = Some (VList ["image_tempmap.par"; "make_mkwarf_map.par";
                   "multi_spec.par"]).
Proof.
  split; [|apply (params_when_set installs ciao_world)];
    exists "/soft/ciao"; reflexivity.
Defined.

Lemma docs_in_ciao_world :
  is_Some (os_environ ciao_world !! "ASCDS_INSTALL")
  ∧ ∃ d, globals (run installs ciao_world).1 !! "docs" = Some (VList d)
       ∧ ∀ s, s ∈ ["image_tempmap"; "make_mkwarf_map"; "multi_spec"] →
              (s +:+ ".xml" ∈ d
               ↔ os_path_exists ciao_world (s +:+ ".xml") = true).
Proof.
  split; [|apply (docs_when_set installs ciao_world)];
    exists "/soft/ciao"; reflexivity.
Defined.

Lemma metadata_in_ciao_world :
  ciao_call ∈ calls (run installs ciao_world).1
  ∧ name ciao_call = "TemperatureMaps"
  ∧ version ciao_call = "4.13.0"
  ∧ description ciao_call = "Temperature maps scripts"
  ∧ author ciao_call = "Kenny Glotfelty"
  ∧ author_email ciao_call = "glotfeltyk@si.edu"
  ∧ url ciao_call = "https://github.com/kglotfelty/TemperatureMaps/".
Proof.
  assert (ciao_call ∈ calls (run installs ciao_world).1) as H
    by (vm_compute; left).
  split; [exact H|]. exact (metadata_fixed installs ciao_world ciao_call H).
Defined.

Lemma scripts_in_ciao_world :
  ciao_call ∈ calls (run installs ciao_world).1
  ∧ scripts ciao_call = ["image_tempmap"; "make_mkwarf_map"; "multi_spec"]
  ∧ globals (run installs ciao_world).1 !! "scripts"
    = Some (VList ["image_tempmap"; "make_mkwarf_map"; "multi_spec"]).
Proof.
  assert (ciao_call ∈ calls (run installs ciao_world).1) as H
    by (vm_compute; left).
  split; [exact H|]. exact (scripts_fixed installs ciao_world ciao_call H).
Defined.

(** In [ciao_world], with a packaging routine that raises, the script
    raises what the routine raised. *)
Lemma packaging_fails_in_ciao_world :
  is_Some (os_environ ciao_world !! "ASCDS_INSTALL")
  ∧ (∃ st, bind (guard ciao_world) (λ _, build_lists ciao_world) init
           = (st, inr tt))
  ∧ ∀ e, (run rejects ciao_world).2 = inl e →
         (∃ x, e = ImportRaised "distutils.core" x
             ∧ import_raises ciao_world "distutils.core" = Some x
             ∧ calls (run rejects ciao_world).1 = [])
         ∨ (∃ args x, e = External x
                    ∧ calls (run rejects ciao_world).1 = [args]
                    ∧ rejects ciao_world args = Some x).
Proof.
  split; [|apply (only_import_or_packaging_fails rejects ciao_world)];
    exists "/soft/ciao"; reflexivity.
Defined.

(** C6, as stated, fails in [stripped_world]: [ASCDS_INSTALL] is in the
    environment and the script raises what the import at line 14 raised,
    which is neither the [AssertionError] of the guard nor an exception of
    the packaging routine: the routine was not called. *)
Lemma import_fails_in_stripped_world :
  is_Some (os_environ stripped_world !! "ASCDS_INSTALL")
  ∧ (run installs stripped_world).2
    = inl (ImportRaised "distutils.core" "ModuleNotFoundError")
  ∧ calls (run installs stripped_world).1 = []
  ∧ globals (run installs stripped_world).1 !! "setup" = None
  ∧ ¬ (∀ e, (run installs stripped_world).2 = inl e →
            ∃ args x, e = External x
                    ∧ installs stripped_world args = Some x).
Proof.
  split; [exists "/soft/ciao"; reflexivity|].
  split; [vm_compute; reflexivity|].
  split; [vm_compute; reflexivity|].
  split; [vm_compute; reflexivity|].
  intros H.
  destruct (H (ImportRaised "distutils.core" "ModuleNotFoundError"))
    as (args & x & E & _); [vm_compute; reflexivity|discriminate E].
Qed.

Lemma lists_in_ciao_world :
  globals (run installs ciao_world).1 !! "scripts"
  = Some (VList ["image_tempmap"; "make_mkwarf_map"; "multi_spec"])
  ∧ globals (run installs ciao_world).1 !! "params"
    = Some (VList (params_by_concat
                     ["image_tempmap"; "make_mkwarf_map"; "multi_spec"]))
  ∧ globals (run installs ciao_world).1 !! "docs"
    = Some (VList (docs_by_concat ciao_world
                     ["image_tempmap"; "make_mkwarf_map"; "multi_spec"])).
Proof.
  assert (globals (run installs ciao_world).1 !! "scripts"
          = Some (VList ["image_tempmap"; "make_mkwarf_map"; "multi_spec"]))
    as H by (vm_compute; reflexivity).
  split; [exact H|]. exact (lists_by_concat installs ciao_world _ H).
Defined.

Lemma docs_sublist_in_ciao_world :
  globals (run installs ciao_world).1 !! "docs"
  = Some (VList ["multi_spec.xml"])
  ∧ ["multi_spec.xml"] `sublist_of` ["image_tempmap.xml";
                                      "make_mkwarf_map.xml"; "multi_spec.xml"]
  ∧ length ["multi_spec.xml"] ≤ 3
  ∧ NoDup ["multi_spec.xml"].
Proof.
  assert (globals (run installs ciao_world).1 !! "docs"
          = Some (VList ["multi_spec.xml"]))
    as H by (vm_compute; reflexivity).
  split; [exact H|].
  exact (docs_sublist installs ciao_world ["multi_spec.xml"] H).
Defined.

Lemma data_files_in_ciao_world :
  ciao_call ∈ calls (run installs ciao_world).1
  ∧ ∃ p d, globals (run installs ciao_world).1 !! "params" = Some (VList p)
         ∧ globals (run installs ciao_world).1 !! "docs" = Some (VList d)
         ∧ data_files ciao_call = [("param", p); ("share/doc/xml", d)].
Proof.
  assert (ciao_call ∈ calls (run installs ciao_world).1) as H
    by (vm_compute; left).
  split; [exact H|]. exact (data_files_fixed installs ciao_world ciao_call H).
Defined.

(** ** Further properties of the script *)

Section Further.

Variable setup : World → SetupArgs → option string.

Lemma docs_by_concat_names w :
  docs_by_concat w ["image_tempmap"; "make_mkwarf_map"; "multi_spec"]
  = filter (λ p, os_path_exists w p)
      ["image_tempmap.xml"; "make_mkwarf_map.xml"; "multi_spec.xml"].
Proof. done. Qed.

(** The list of [docs] is decided by the answers for the three [.xml]
    names alone. *)
Lemma docs_by_concat_agree w1 w2 :
  os_path_exists w1 "image_tempmap.xml"
    = os_path_exists w2 "image_tempmap.xml" →
  os_path_exists w1 "make_mkwarf_map.xml"
    = os_path_exists w2 "make_mkwarf_map.xml" →
  os_path_exists w1 "multi_spec.xml" = os_path_exists w2 "multi_spec.xml" →
  docs_by_concat w1 ["image_tempmap"; "make_mkwarf_map"; "multi_spec"]
  = docs_by_concat w2 ["image_tempmap"; "make_mkwarf_map"; "multi_spec"].
Proof.
  intros H1 H2 H3. rewrite !docs_by_concat_names.
  rewrite !filter_cons, !filter_nil. by rewrite H1, H2, H3.
Qed.

(** X1: whatever the world, the script raises one of three exceptions: the
    [AssertionError] of the guard, and then assertions are on,
    [ASCDS_INSTALL] is not in the environment and nothing was called; or
    what the import of the packaging routine at line 14 raised, and then
    nothing was called either; or what its one call of the packaging
    routine raised.  It never fails on a name, an attribute or a type of
    its own. *)
Theorem run_raises_only w e :
  (run setup w).2 = inl e →
  (e = AssertionError "Please run this after CIAO has been setup"
   ∧ debug w = true
   ∧ os_environ w !! "ASCDS_INSTALL" = None
   ∧ calls (run setup w).1 = [])
  ∨ (∃ x, e = ImportRaised "distutils.core" x
        ∧ import_raises w "distutils.core" = Some x
        ∧ calls (run setup w).1 = [])
  ∨ ∃ args x, e = External x
            ∧ calls (run setup w).1 = [args]
            ∧ setup w args = Some x.
Proof.
  assert (debug w = true ∧ os_environ w !! "ASCDS_INSTALL" = None
          ∨ (debug w = false ∨ is_Some (os_environ w !! "ASCDS_INSTALL")))
    as [[D E]|H].
  { destruct (debug w); [|by right; left].
    destruct (os_environ w !! "ASCDS_INSTALL"); [right; right; eauto|by left]. }
  - rewrite (run_fails setup w D E). intros [= <-]. by left.
  - destruct (import_raises w "distutils.core") as [x|] eqn:I.
    + rewrite (run_import_fails setup w x H I). cbn [fst snd].
      intros [= <-]. right. left. by exists x.
    + rewrite (run_passes setup w H I). cbn [fst snd].
      destruct (setup w _) as [x|] eqn:S; [|done].
      intros [= <-]. right. right. by eexists _, x.
Qed.

(** X2: when the interpreter does not execute assertions, the guard lets
    every environment through: no [AssertionError] is raised and the lists
    are built, with or without [ASCDS_INSTALL]; and where the import of the
    packaging routine raises nothing, the routine is called with them. *)
Theorem guard_inert_without_assertions w :
  debug w = false →
  (∀ m, (run setup w).2 ≠ inl (AssertionError m))
  ∧ globals (run setup w).1 !! "params"
    = Some (VList ["image_tempmap.par"; "make_mkwarf_map.par";
                   "multi_spec.par"])
  ∧ ∃ d, globals (run setup w).1 !! "docs" = Some (VList d)
       ∧ (import_raises w "distutils.core" = None →
          calls (run setup w).1
          = [keywords ["image_tempmap"; "make_mkwarf_map"; "multi_spec"]
               ["image_tempmap.par"; "make_mkwarf_map.par";
                "multi_spec.par"]
               d]).
Proof.
  intros D.
  destruct (run_lists setup w (or_introl D)) as (_ & Hp & Hd).
  split; [|split; [exact Hp|]].
  - intros m. destruct (import_raises w "distutils.core") as [x|] eqn:I.
    + by rewrite (run_import_fails setup w x (or_introl D) I).
    + rewrite (run_passes setup w (or_introl D) I). cbn [snd].
      by destruct (setup w _).
  - eexists. split; [exact Hd|]. intros I.
    by rewrite (run_passes setup w (or_introl D) I).
Qed.

(** X3: the state in which the script ends depends on the world only
    through the interpreter mode, the presence of [ASCDS_INSTALL] in the
    environment, the answers of [os.path.exists] for the three [.xml] names
    and the outcome of importing [distutils.core].  The value of
    [ASCDS_INSTALL], the other variables, the other files (the scripts and
    the [.par] files among them) and the argument vector have no influence
    beyond these. *)
Theorem state_depends_only_on w1 w2 :
  debug w1 = debug w2 →
  (is_Some (os_environ w1 !! "ASCDS_INSTALL")
   ↔ is_Some (os_environ w2 !! "ASCDS_INSTALL")) →
  os_path_exists w1 "image_tempmap.xml"
    = os_path_exists w2 "image_tempmap.xml" →
  os_path_exists w1 "make_mkwarf_map.xml"
    = os_path_exists w2 "make_mkwarf_map.xml" →
  os_path_exists w1 "multi_spec.xml" = os_path_exists w2 "multi_spec.xml" →
  import_raises w1 "distutils.core" = import_raises w2 "distutils.core" →
  (run setup w1).1 = (run setup w2).1.
Proof.
  intros D K H1 H2 H3 I.
  pose proof (docs_by_concat_agree w1 w2 H1 H2 H3) as Hd.
  assert (finished w1 = finished w2) as F.
  { unfold finished, listed. cbn zeta. by rewrite Hd. }
  destruct (run_cases setup w1)
    as [(D1 & E1 & ->)|[(P1 & [x I1] & ->)|(P1 & I1 & ->)]].
  - assert (os_environ w2 !! "ASCDS_INSTALL" = None) as E2.
    { apply eq_None_not_Some. rewrite <- K, E1. by intros [??]. }
    rewrite D in D1. by rewrite (run_fails setup w2 D1 E2).
  - rewrite D, K, I in *.
    rewrite (run_import_fails setup w2 x P1 I1). unfold listed.
    by rewrite Hd.
  - rewrite D, K, I in *. by rewrite (run_passes setup w2 P1 I1).
Qed.

(** X4: the packaging routine is called at most once, and it is not called
    exactly when the guard aborts (assertions are on and [ASCDS_INSTALL] is
    not in the environment) or the import of the routine raises. *)
Theorem called_unless_aborted w :
  length (calls (run setup w).1) ≤ 1
  ∧ (calls (run setup w).1 = []
     ↔ (debug w = true ∧ os_environ w !! "ASCDS_INSTALL" = None)
       ∨ is_Some (import_raises w "distutils.core")).
Proof.
  destruct (run_cases setup w)
    as [(D & E & ->)|[(P & I & ->)|(P & I & ->)]].
  - split; [cbn; lia|]. split; [by left|done].
  - split; [cbn; lia|]. split; [by right|done].
  - rewrite finished_calls. split; [done|]. split; [done|].
    intros [[D E]|[x Ix]]; [|by rewrite I in Ix].
    destruct P as [P|[v P]]; [by rewrite D in P|by rewrite E in P].
Qed.

(** X5: when [ASCDS_INSTALL] is in the environment, [docs] is the empty
    list exactly when none of the three [.xml] names exists, and it is the
    list of all three exactly when all of them exist. *)
Theorem docs_empty_or_full w :
  is_Some (os_environ w !! "ASCDS_INSTALL") →
  (globals (run setup w).1 !! "docs" = Some (VList [])
   ↔ os_path_exists w "image_tempmap.xml" = false
     ∧ os_path_exists w "make_mkwarf_map.xml" = false
     ∧ os_path_exists w "multi_spec.xml" = false)
  ∧ (globals (run setup w).1 !! "docs"
     = Some (VList ["image_tempmap.xml"; "make_mkwarf_map.xml";
                    "multi_spec.xml"])
     ↔ os_path_exists w "image_tempmap.xml" = true
       ∧ os_path_exists w "make_mkwarf_map.xml" = true
       ∧ os_path_exists w "multi_spec.xml" = true).
Proof.
  intros H. destruct (run_lists setup w (or_intror H)) as (_ & _ & ->).
  rewrite docs_by_concat_names, !filter_cons, !filter_nil.
  destruct (os_path_exists w "image_tempmap.xml"),
    (os_path_exists w "make_mkwarf_map.xml"),
    (os_path_exists w "multi_spec.xml"); cbn;
    split; split; first [done | by intros (? & ? & ?) | by intros [=]].
Qed.

(** X6: the global names that the script has bound when it ends are [os]
    and [sys] when the guard aborts; these and [scripts], [params] and
    [docs] when the import of the packaging routine raises; and these five
    and [setup] otherwise.  The script binds no other name. *)
Theorem names_bound w :
  (debug w = true ∧ os_environ w !! "ASCDS_INSTALL" = None
   ∧ dom (globals (run setup w).1) = {["os"; "sys"]})
  ∨ ((debug w = false ∨ is_Some (os_environ w !! "ASCDS_INSTALL"))
     ∧ is_Some (import_raises w "distutils.core")
     ∧ dom (globals (run setup w).1)
       = {["os"; "sys"; "scripts"; "params"; "docs"]})
  ∨ ((debug w = false ∨ is_Some (os_environ w !! "ASCDS_INSTALL"))
     ∧ import_raises w "distutils.core" = None
     ∧ dom (globals (run setup w).1)
       = {["os"; "sys"; "scripts"; "params"; "docs"; "setup"]}).
Proof.
  assert (dom (globals (imported init)) = ({["os"; "sys"]} : gset string))
    as Di.
  { unfold imported, set_global, init. cbn [globals].
    rewrite !dom_insert_L, dom_empty_L. set_solver. }
  assert (dom (globals
                 (listed w ["image_tempmap"; "make_mkwarf_map"; "multi_spec"]
                    (imported init)))
          = ({["os"; "sys"; "scripts"; "params"; "docs"]} : gset string))
    as Dl.
  { unfold listed, set_global. cbn [globals].
    rewrite !dom_insert_L, Di. set_solver. }
  assert (dom (globals (finished w))
          = ({["os"; "sys"; "scripts"; "params"; "docs"; "setup"]}
             : gset string)) as Df.
  { unfold finished, record_call. cbn zeta. unfold set_global at 1.
    cbn [globals]. rewrite dom_insert_L, Dl. set_solver. }
  destruct (run_cases setup w)
    as [(D & E & ->)|[(P & I & ->)|(P & I & ->)]]; eauto 10.
Qed.

(** X7: in every call of the packaging routine made by the script, no file
    name is registered twice, neither within nor across the scripts, the
    parameter files and the documentation files. *)
Theorem no_file_twice w args :
  args ∈ calls (run setup w).1 →
  NoDup (scripts args ++ mjoin (snd <$> data_files args)).
Proof.
  destruct (run_cases setup w) as [(_ & _ & ->)|[(_ & _ & ->)|(_ & _ & ->)]];
    [by intros ?%elem_of_nil..|].
  - rewrite finished_calls. intros ->%list_elem_of_singleton.
    cbn [scripts data_files keywords fmap list_fmap snd mjoin list_join].
    eapply (sublist_NoDup _
              (["image_tempmap"; "make_mkwarf_map"; "multi_spec"]
               ++ ["image_tempmap.par"; "make_mkwarf_map.par";
                   "multi_spec.par"]
               ++ ["image_tempmap.xml"; "make_mkwarf_map.xml";
                   "multi_spec.xml"] ++ [])).
    + apply (bool_decide_unpack _). by vm_compute.
    + apply sublist_app; [done|]. apply sublist_app; [done|].
      apply sublist_app; [|done]. apply sublist_filter.
Qed.

End Further.


(** ** The further properties at the sample worlds *)

Lemma run_raises_in_stripped_world :
  (run installs stripped_world).2
  = inl (ImportRaised "distutils.core" "ModuleNotFoundError")
  ∧ ((ImportRaised "distutils.core" "ModuleNotFoundError"
      = AssertionError "Please run this after CIAO has been setup"
      ∧ debug stripped_world = true
      ∧ os_environ stripped_world !! "ASCDS_INSTALL" = None
      ∧ calls (run installs stripped_world).1 = [])
     ∨ (∃ x, ImportRaised "distutils.core" "ModuleNotFoundError"
             = ImportRaised "distutils.core" x
           ∧ import_raises stripped_world "distutils.core" = Some x
           ∧ calls (run installs stripped_world).1 = [])
     ∨ ∃ args x,
         ImportRaised "distutils.core" "ModuleNotFoundError" = External x
         ∧ calls (run installs stripped_world).1 = [args]
         ∧ installs stripped_world args = Some x).
Proof.
  assert ((run installs stripped_world).2
          = inl (ImportRaised "distutils.core" "ModuleNotFoundError"))
    as H by (vm_compute; reflexivity).
  split; [exact H|]. exact (run_raises_only installs stripped_world _ H).
Defined.

Lemma guard_inert_in_optimized_world :
  debug optimized_world = false
  ∧ (∀ m, (run installs optimized_world).2 ≠ inl (AssertionError m))
  ∧ globals (run installs optimized_world).1 !! "params"
    = Some (VList ["image_tempmap.par"; "make_mkwarf_map.par";
                   "multi_spec.par"])
  ∧ ∃ d, globals (run installs optimized_world).1 !! "docs" = Some (VList d)
       ∧ (import_raises optimized_world "distutils.core" = None →
          calls (run installs optimized_world).1
          = [keywords ["image_tempmap"; "make_mkwarf_map"; "multi_spec"]
               ["image_tempmap.par"; "make_mkwarf_map.par";
                "multi_spec.par"]
               d]).
Proof.
  split; [reflexivity|].
  apply (guard_inert_without_assertions installs optimized_world).
  reflexivity.
Defined.

(** [ciao_world] and [crowded_world] differ in the value of
    [ASCDS_INSTALL], in the other variables, in the other files and in the
    argument vector, and end in the same state. *)
Lemma same_state_in_ciao_and_crowded_world :
  debug ciao_world = debug crowded_world
  ∧ (is_Some (os_environ ciao_world !! "ASCDS_INSTALL")
     ↔ is_Some (os_environ crowded_world !! "ASCDS_INSTALL"))
  ∧ os_path_exists ciao_world "image_tempmap.xml"
    = os_path_exists crowded_world "image_tempmap.xml"
  ∧ os_path_exists ciao_world "make_mkwarf_map.xml"
    = os_path_exists crowded_world "make_mkwarf_map.xml"
  ∧ os_path_exists ciao_world "multi_spec.xml"
    = os_path_exists crowded_world "multi_spec.xml"
  ∧ import_raises ciao_world "distutils.core"
    = import_raises crowded_world "distutils.core"
  ∧ (run installs ciao_world).1 = (run installs crowded_world).1.
Proof.
  assert (is_Some (os_environ ciao_world !! "ASCDS_INSTALL")
          ↔ is_Some (os_environ crowded_world !! "ASCDS_INSTALL")) as K.
  { split; intros _; [exists EmptyString|exists "/soft/ciao"]; reflexivity. }
  split; [reflexivity|]. split; [exact K|].
  split; [reflexivity|]. split; [reflexivity|]. split; [reflexivity|].
  split; [reflexivity|].
  apply (state_depends_only_on installs ciao_world crowded_world);
    [reflexivity|exact K|reflexivity..].
Defined.

Lemma docs_neither_empty_nor_full_in_ciao_world :
  is_Some (os_environ ciao_world !! "ASCDS_INSTALL")
  ∧ (globals (run installs ciao_world).1 !! "docs" = Some (VList [])
     ↔ os_path_exists ciao_world "image_tempmap.xml" = false
       ∧ os_path_exists ciao_world "make_mkwarf_map.xml" = false
       ∧ os_path_exists ciao_world "multi_spec.xml" = false)
  ∧ (globals (run installs ciao_world).1 !! "docs"
     = Some (VList ["image_tempmap.xml"; "make_mkwarf_map.xml";
                    "multi_spec.xml"])
     ↔ os_path_exists ciao_world "image_tempmap.xml" = true
       ∧ os_path_exists ciao_world "make_mkwarf_map.xml" = true
       ∧ os_path_exists ciao_world "multi_spec.xml" = true).
Proof.
  split; [|apply (docs_empty_or_full installs ciao_world)];
    exists "/soft/ciao"; reflexivity.
Defined.

Lemma no_file_twice_in_ciao_world :
  ciao_call ∈ calls (run installs ciao_world).1
  ∧ NoDup (scripts ciao_call ++ mjoin (snd <$> data_files ciao_call)).
Proof.
  assert (ciao_call ∈ calls (run installs ciao_world).1) as H
    by (vm_compute; left).
  split; [exact H|]. exact (no_file_twice installs ciao_world ciao_call H).
Defined.

End SetupPy.
